(** * MeAi: docs/diagrams/high_level_architecture.py

    The script draws the high-level architecture diagram of the MeAi
    companion system with matplotlib and saves it as a PNG.  It is a
    straight-line sequence of pyplot calls.  The development below embeds
    it as a computation in a small state-and-exception monad [Py] over the
    state of the Python process: the figures pyplot manages, the host
    filesystem, and (as ghost state) the sequence of library calls issued
    so far.

    Library.  matplotlib is not part of the repository.  Its calls are
    given the behaviour its documentation states, as far as the script can
    observe it: an Axes method updates the Axes it is called on, a pyplot
    function acts on the current figure, and [savefig] renders the current
    figure in memory and then opens the file for writing.  Rasterisation is
    left to a backend function ([print_figure]).

    Host.  Opening the output file follows the rules of a POSIX [open]
    that creates or truncates: every directory on the way must exist, be a
    directory and be searchable; a directory at the path itself is an
    error; a regular file already there is truncated if the process may
    write it, whether or not it may write the directory; a file that is
    not there is created if the process may write the directory.  A
    failed open creates nothing.  The permissions are those in effect for
    the process; a file the process creates is one it may write again.
    Symbolic links, special files, and failures after the open (disk
    full) or of the backend itself are outside the model.

    Numbers.  The coordinates are Python float literals.  They are read
    here as the exact decimal rationals the literals denote ([Q]).  Every
    rectangle coordinate of the script is a multiple of 1/4, so the sums
    [x + width] and [y + height] taken below are exact in binary floating
    point as well. *)

From Stdlib Require Import QArith Lqa Ascii String.
From stdpp Require Import gmap strings list fin_maps.

Local Open Scope Q_scope.
Local Open Scope string_scope.

(** ** Artists, with the keyword arguments the script passes *)

(** [patches.Rectangle(xy, width, height, fill=, alpha=, facecolor=,
    edgecolor=, linewidth=, zorder=)]. *)
Module Rectangle.
Record t := {
  xy : Q * Q;
  width : Q;
  height : Q;
  fill : bool;
  alpha : Q;
  facecolor : string;
  edgecolor : string;
  linewidth : Q;
  zorder : Z
}.
End Rectangle.

(** The arrow patch made by [ax.arrow(x, y, dx, dy, head_width=,
    head_length=, fc=, ec=, zorder=)]. *)
Module FancyArrow.
Record t := {
  x : Q;
  y : Q;
  dx : Q;
  dy : Q;
  head_width : Q;
  head_length : Q;
  fc : string;
  ec : string;
  zorder : Z
}.
End FancyArrow.

(** [text(x, y, s, fontsize=, fontweight=, ha=, va=)]; a keyword the call
    leaves out is [None]. *)
Module Text.
Record t := {
  x : Q;
  y : Q;
  s : string;
  fontsize : Z;
  fontweight : option string;
  ha : option string;
  va : option string
}.
End Text.

(** [patches.Patch(facecolor=, edgecolor=, label=)], a legend handle. *)
Module Patch.
Record t := {
  facecolor : string;
  edgecolor : string;
  label : string
}.
End Patch.

(** [ax.legend(handles=, loc=, bbox_to_anchor=, fancybox=, shadow=, ncol=)]. *)
Module Legend.
Record t := {
  handles : list Patch.t;
  loc : string;
  bbox_to_anchor : Q * Q;
  fancybox : bool;
  shadow : bool;
  ncol : Z
}.
End Legend.

(** [plt.title(label, fontsize=, pad=)]. *)
Module Title.
Record t := {
  label : string;
  fontsize : Z;
  pad : Z
}.
End Title.

(** What [ax.patches] holds: rectangles and arrows, in insertion order. *)
Inductive artist :=
  | RectangleArtist (r : Rectangle.t)
  | ArrowArtist (a : FancyArrow.t).

Module Axes.
Record t := {
  facecolor : string;
  patches : list artist;
  texts : list Text.t;
  xticks : option (list Q);
  yticks : option (list Q);
  xlim : Q * Q;
  ylim : Q * Q;
  legend : option Legend.t;
  title : option Title.t
}.

(** A fresh Axes: white background, automatic ticks, unit view. *)
Definition empty : t :=
  {| facecolor := "white"; patches := []; texts := [];
     xticks := None; yticks := None; xlim := (0, 1); ylim := (0, 1);
     legend := None; title := None |}.

Definition set_facecolor (c : string) (a : t) : t :=
  {| facecolor := c; patches := patches a; texts := texts a;
     xticks := xticks a; yticks := yticks a; xlim := xlim a; ylim := ylim a;
     legend := legend a; title := title a |}.

Definition add_patch (p : artist) (a : t) : t :=
  {| facecolor := facecolor a; patches := patches a ++ [p]; texts := texts a;
     xticks := xticks a; yticks := yticks a; xlim := xlim a; ylim := ylim a;
     legend := legend a; title := title a |}.

Definition add_text (x : Text.t) (a : t) : t :=
  {| facecolor := facecolor a; patches := patches a; texts := texts a ++ [x];
     xticks := xticks a; yticks := yticks a; xlim := xlim a; ylim := ylim a;
     legend := legend a; title := title a |}.

Definition set_xticks (l : list Q) (a : t) : t :=
  {| facecolor := facecolor a; patches := patches a; texts := texts a;
     xticks := Some l; yticks := yticks a; xlim := xlim a; ylim := ylim a;
     legend := legend a; title := title a |}.

Definition set_yticks (l : list Q) (a : t) : t :=
  {| facecolor := facecolor a; patches := patches a; texts := texts a;
     xticks := xticks a; yticks := Some l; xlim := xlim a; ylim := ylim a;
     legend := legend a; title := title a |}.

Definition set_xlim (lo hi : Q) (a : t) : t :=
  {| facecolor := facecolor a; patches := patches a; texts := texts a;
     xticks := xticks a; yticks := yticks a; xlim := (lo, hi); ylim := ylim a;
     legend := legend a; title := title a |}.

Definition set_ylim (lo hi : Q) (a : t) : t :=
  {| facecolor := facecolor a; patches := patches a; texts := texts a;
     xticks := xticks a; yticks := yticks a; xlim := xlim a; ylim := (lo, hi);
     legend := legend a; title := title a |}.

Definition set_legend (l : Legend.t) (a : t) : t :=
  {| facecolor := facecolor a; patches := patches a; texts := texts a;
     xticks := xticks a; yticks := yticks a; xlim := xlim a; ylim := ylim a;
     legend := Some l; title := title a |}.

Definition set_title (l : Title.t) (a : t) : t :=
  {| facecolor := facecolor a; patches := patches a; texts := texts a;
     xticks := xticks a; yticks := yticks a; xlim := xlim a; ylim := ylim a;
     legend := legend a; title := Some l |}.
End Axes.

(** A figure as [plt.subplots] makes it: one Axes. *)
Module Figure.
Record t := {
  figsize : Q * Q;
  ax : Axes.t;
  texts : list Text.t;
  tight : bool
}.

Definition new (size : Q * Q) : t :=
  {| figsize := size; ax := Axes.empty; texts := []; tight := false |}.

Definition on_axes (f : Axes.t → Axes.t) (g : t) : t :=
  {| figsize := figsize g; ax := f (ax g); texts := texts g; tight := tight g |}.

Definition add_text (x : Text.t) (g : t) : t :=
  {| figsize := figsize g; ax := ax g; texts := texts g ++ [x]; tight := tight g |}.

Definition tight_layout (g : t) : t :=
  {| figsize := figsize g; ax := ax g; texts := texts g; tight := true |}.
End Figure.

(** ** The Python process *)

(** A directory, with what the process may do with it: look entries up
    in it (search), and create entries in it (write). *)
Module Dir.
Record t := {
  searchable : bool;
  writable : bool
}.
End Dir.

(** A regular file: whether the process may open it for writing, and its
    contents. *)
Module File.
Record t := {
  writable : bool;
  data : list Byte.byte
}.
End File.

(** The host filesystem as the script can observe it, by absolute path:
    the directories and the regular files that exist. *)
Record filesystem := {
  dirs : gmap string Dir.t;
  files : gmap string File.t
}.

(** What may differ from one run to the next apart from the filesystem.
    No call of the script reads any of it. *)
Record runtime := {
  argv : list string;
  environ : list (string * string);
  clock : Z;
  seed : Z
}.

(** The library calls, with their arguments, in the order issued. *)
Inductive api_call :=
  | Call_subplots (figsize : Q * Q)
  | Call_set_facecolor (c : string)
  | Call_add_patch (r : Rectangle.t)
  | Call_text (x : Text.t)
  | Call_arrow (a : FancyArrow.t)
  | Call_set_xticks (l : list Q)
  | Call_set_yticks (l : list Q)
  | Call_set_xlim (lo hi : Q)
  | Call_set_ylim (lo hi : Q)
  | Call_legend (l : Legend.t)
  | Call_title (x : Title.t)
  | Call_figtext (x : Text.t)
  | Call_tight_layout
  | Call_savefig (fname : string) (dpi : Z) (bbox_inches : string).

Record process := {
  rt : runtime;
  disk : filesystem;
  figures : list Figure.t;
  calls : list api_call
}.

Definition set_disk (d : filesystem) (p : process) : process :=
  {| rt := rt p; disk := d; figures := figures p; calls := calls p |}.

Definition set_figures (l : list Figure.t) (p : process) : process :=
  {| rt := rt p; disk := disk p; figures := l; calls := calls p |}.

Definition set_calls (l : list api_call) (p : process) : process :=
  {| rt := rt p; disk := disk p; figures := figures p; calls := l |}.

Inductive exception :=
  | FileNotFoundError (filename : string)
  | NotADirectoryError (filename : string)
  | IsADirectoryError (filename : string)
  | PermissionError (filename : string)
  | ReferenceError.

Inductive result (A : Type) :=
  | Return (a : A)
  | Raise (e : exception).
Arguments Return {A} a.
Arguments Raise {A} e.

(** A statement runs on the process state; an exception keeps the state
    reached when it was raised and skips what follows: the script has no
    [try]. *)
Definition Py (A : Type) : Type := process → result A * process.

#[export] Instance Py_ret : MRet Py := λ A a p, (Return a, p).

#[export] Instance Py_bind : MBind Py := λ A B k m p,
  match m p with
  | (Return a, p') => k a p'
  | (Raise e, p') => (Raise e, p')
  end.

Definition log_call (c : api_call) : Py unit := λ p,
  (Return tt, set_calls (calls p ++ [c]) p).

(** ** Paths *)

(** Split at the last occurrence of [sep]. *)
Fixpoint rsplit (sep : Ascii.ascii) (s : string) : option (string * string) :=
  match s with
  | EmptyString => None
  | String c s' =>
      match rsplit sep s' with
      | Some (h, t) => Some (String c h, t)
      | None => if Ascii.eqb c sep then Some (EmptyString, s') else None
      end
  end.

(** [os.path.dirname]: the directory a file is created in. *)
Definition dirname (fname : string) : string :=
  match rsplit "/"%char fname with
  | Some (EmptyString, _) => "/"
  | Some (h, _) => h
  | None => "."
  end.

Definition basename (fname : string) : string :=
  match rsplit "/"%char fname with
  | Some (_, t) => t
  | None => fname
  end.

(** [savefig] without [format=] takes the format from the file name's
    extension, and [savefig.format] ("png") when there is none. *)
Definition infer_format (fname : string) : string :=
  match rsplit "."%char (basename fname) with
  | Some (_, ext) => ext
  | None => "png"
  end.

(** ** The pyplot calls the script makes *)

(** A method call on the Axes (or Figure) of figure number [n]. *)
Definition on_figure (n : nat) (f : Figure.t → Figure.t) : Py unit := λ p,
  match figures p !! n with
  | Some g => (Return tt, set_figures (<[n := f g]> (figures p)) p)
  | None => (Raise ReferenceError, p)
  end.

Definition get_figure (n : nat) : Py Figure.t := λ p,
  match figures p !! n with
  | Some g => (Return g, p)
  | None => (Raise ReferenceError, p)
  end.

Definition on_axes (n : nat) (f : Axes.t → Axes.t) : Py unit :=
  on_figure n (Figure.on_axes f).

(** [plt.gcf()]: the newest figure; pyplot makes a default one when there
    is none. *)
Definition gcf : Py nat := λ p,
  match figures p with
  | [] => (Return 0%nat, set_figures [Figure.new (6.4, 4.8)] p)
  | _ :: l => (Return (length l), p)
  end.

(** [fig, ax = plt.subplots(figsize=...)]: both handles are the number of
    the new figure. *)
Definition new_figure (figsize : Q * Q) : Py nat := λ p,
  (Return (length (figures p)),
   set_figures (figures p ++ [Figure.new figsize]) p).

Definition plt_subplots (figsize : Q * Q) : Py (nat * nat) :=
  log_call (Call_subplots figsize);;
  n ← new_figure figsize;
  mret (n, n).

Definition ax_set_facecolor (ax : nat) (c : string) : Py unit :=
  log_call (Call_set_facecolor c);;
  on_axes ax (Axes.set_facecolor c).

Definition ax_add_patch (ax : nat) (r : Rectangle.t) : Py unit :=
  log_call (Call_add_patch r);;
  on_axes ax (Axes.add_patch (RectangleArtist r)).

Definition ax_text (ax : nat) (x y : Q) (s : string) (fontsize : Z)
    (fontweight ha va : option string) : Py unit :=
  let t := Text.Build_t x y s fontsize fontweight ha va in
  log_call (Call_text t);;
  on_axes ax (Axes.add_text t).

Definition ax_arrow (ax : nat) (x y dx dy head_width head_length : Q)
    (fc ec : string) (zorder : Z) : Py unit :=
  let a := FancyArrow.Build_t x y dx dy head_width head_length fc ec zorder in
  log_call (Call_arrow a);;
  on_axes ax (Axes.add_patch (ArrowArtist a)).

Definition ax_set_xticks (ax : nat) (l : list Q) : Py unit :=
  log_call (Call_set_xticks l);;
  on_axes ax (Axes.set_xticks l).

Definition ax_set_yticks (ax : nat) (l : list Q) : Py unit :=
  log_call (Call_set_yticks l);;
  on_axes ax (Axes.set_yticks l).

Definition ax_set_xlim (ax : nat) (lo hi : Q) : Py unit :=
  log_call (Call_set_xlim lo hi);;
  on_axes ax (Axes.set_xlim lo hi).

Definition ax_set_ylim (ax : nat) (lo hi : Q) : Py unit :=
  log_call (Call_set_ylim lo hi);;
  on_axes ax (Axes.set_ylim lo hi).

Definition ax_legend (ax : nat) (handles : list Patch.t) (loc : string)
    (bbox_to_anchor : Q * Q) (fancybox shadow : bool) (ncol : Z) : Py unit :=
  let l := Legend.Build_t handles loc bbox_to_anchor fancybox shadow ncol in
  log_call (Call_legend l);;
  on_axes ax (Axes.set_legend l).

Definition plt_title (label : string) (fontsize pad : Z) : Py unit :=
  let t := Title.Build_t label fontsize pad in
  log_call (Call_title t);;
  n ← gcf;
  on_axes n (Axes.set_title t).

Definition plt_figtext (x y : Q) (s : string) (ha : option string)
    (fontsize : Z) : Py unit :=
  let t := Text.Build_t x y s fontsize None ha None in
  log_call (Call_figtext t);;
  n ← gcf;
  on_figure n (Figure.add_text t).

Definition plt_tight_layout : Py unit :=
  log_call Call_tight_layout;;
  n ← gcf;
  on_figure n Figure.tight_layout.

(** The directories above [rest], nearest to the root first, the root
    itself left out: for "/a/b/c", "/a" and "/a/b".  [seen] is the part of
    the path already read. *)
Fixpoint dir_prefixes (seen rest : string) : list string :=
  match rest with
  | EmptyString => []
  | String c rest' =>
      if Ascii.eqb c "/"%char then
        match seen with
        | EmptyString => dir_prefixes "/" rest'
        | _ => seen :: dir_prefixes (seen ++ "/") rest'
        end
      else dir_prefixes (seen ++ String c EmptyString) rest'
  end.

Definition ancestors (fname : string) : list string := dir_prefixes "" fname.

(** Path resolution: the first directory on the way that is a regular
    file, is missing, or may not be searched decides the error. *)
Fixpoint walk (fs : filesystem) (fname : string) (ds : list string)
    : result unit :=
  match ds with
  | [] => Return tt
  | d :: ds' =>
      match files fs !! d, dirs fs !! d with
      | Some _, _ => Raise (NotADirectoryError fname)
      | None, None => Raise (FileNotFoundError fname)
      | None, Some m =>
          if Dir.searchable m then walk fs fname ds'
          else Raise (PermissionError fname)
      end
  end.

(** Whether [fname] can be opened to be created or truncated. *)
Definition open_check (fs : filesystem) (fname : string) : result unit :=
  match walk fs fname (ancestors fname) with
  | Raise e => Raise e
  | Return _ =>
      match dirs fs !! fname, files fs !! fname with
      | Some _, _ => Raise (IsADirectoryError fname)
      | None, Some f =>
          if File.writable f then Return tt
          else Raise (PermissionError fname)
      | None, None =>
          match dirs fs !! dirname fname with
          | Some m =>
              if Dir.writable m then Return tt
              else Raise (PermissionError fname)
          | None => Raise (FileNotFoundError fname)
          end
      end
  end.

(** Create or truncate [fname] and write [data]; a failed open leaves the
    disk as it is. *)
Definition write_file (fname : string) (data : list Byte.byte) : Py unit := λ p,
  match open_check (disk p) fname with
  | Raise e => (Raise e, p)
  | Return _ =>
      (Return tt,
       set_disk {| dirs := dirs (disk p);
                   files := <[fname := File.Build_t true data]> (files (disk p)) |} p)
  end.

Section Renderer.

(** The plotting backend: the bytes it produces for a figure in the given
    format, at the given resolution and bounding-box mode.  One backend
    stands for one environment and one version of the library. *)
Variable print_figure : string → Figure.t → Z → string → list Byte.byte.

(** [plt.savefig(fname, dpi=, bbox_inches=)]: the current figure is
    rendered in memory, then the file is opened and written. *)
Definition plt_savefig (fname : string) (dpi : Z) (bbox_inches : string)
    : Py unit :=
  log_call (Call_savefig fname dpi bbox_inches);;
  n ← gcf;
  g ← get_figure n;
  write_file fname (print_figure (infer_format fname) g dpi bbox_inches).

(** ** The script *)

(** The rectangles the script binds to names (lines 12-17, 27-32, ...,
    111-116). *)
Definition main_system : Rectangle.t :=
  {| Rectangle.xy := (0.5, 0.5); Rectangle.width := 11; Rectangle.height := 9;
     Rectangle.fill := true; Rectangle.alpha := 0.2;
     Rectangle.facecolor := "#e6f2ff";
     Rectangle.edgecolor := "#0066cc";
     Rectangle.linewidth := 2;
     Rectangle.zorder := 1 |}.

Definition mirror : Rectangle.t :=
  {| Rectangle.xy := (1, 6); Rectangle.width := 3; Rectangle.height := 2;
     Rectangle.fill := true; Rectangle.alpha := 0.7;
     Rectangle.facecolor := "#ffcccc";
     Rectangle.edgecolor := "#cc0000";
     Rectangle.linewidth := 2;
     Rectangle.zorder := 2 |}.

Definition synthesis : Rectangle.t :=
  {| Rectangle.xy := (4.5, 6); Rectangle.width := 3; Rectangle.height := 2;
     Rectangle.fill := true; Rectangle.alpha := 0.7;
     Rectangle.facecolor := "#ffffcc";
     Rectangle.edgecolor := "#cccc00";
     Rectangle.linewidth := 2;
     Rectangle.zorder := 2 |}.

Definition bridge : Rectangle.t :=
  {| Rectangle.xy := (8, 6); Rectangle.width := 3; Rectangle.height := 2;
     Rectangle.fill := true; Rectangle.alpha := 0.7;
     Rectangle.facecolor := "#ccffcc";
     Rectangle.edgecolor := "#00cc00";
     Rectangle.linewidth := 2;
     Rectangle.zorder := 2 |}.

Definition memory : Rectangle.t :=
  {| Rectangle.xy := (1, 3.5); Rectangle.width := 2.5; Rectangle.height := 1.5;
     Rectangle.fill := true; Rectangle.alpha := 0.7;
     Rectangle.facecolor := "#cce6ff";
     Rectangle.edgecolor := "#0066cc";
     Rectangle.linewidth := 2;
     Rectangle.zorder := 2 |}.

Definition ritual : Rectangle.t :=
  {| Rectangle.xy := (4, 3.5); Rectangle.width := 2.5; Rectangle.height := 1.5;
     Rectangle.fill := true; Rectangle.alpha := 0.7;
     Rectangle.facecolor := "#e6ccff";
     Rectangle.edgecolor := "#6600cc";
     Rectangle.linewidth := 2;
     Rectangle.zorder := 2 |}.

Definition mcp : Rectangle.t :=
  {| Rectangle.xy := (7, 3.5); Rectangle.width := 2.5; Rectangle.height := 1.5;
     Rectangle.fill := true; Rectangle.alpha := 0.7;
     Rectangle.facecolor := "#ffccff";
     Rectangle.edgecolor := "#cc00cc";
     Rectangle.linewidth := 2;
     Rectangle.zorder := 2 |}.

Definition voice : Rectangle.t :=
  {| Rectangle.xy := (1, 1.5); Rectangle.width := 2.5; Rectangle.height := 1.5;
     Rectangle.fill := true; Rectangle.alpha := 0.7;
     Rectangle.facecolor := "#ffe6cc";
     Rectangle.edgecolor := "#cc6600";
     Rectangle.linewidth := 2;
     Rectangle.zorder := 2 |}.

Definition breath : Rectangle.t :=
  {| Rectangle.xy := (4, 1.5); Rectangle.width := 2.5; Rectangle.height := 1.5;
     Rectangle.fill := true; Rectangle.alpha := 0.7;
     Rectangle.facecolor := "#ccffe6";
     Rectangle.edgecolor := "#00cc66";
     Rectangle.linewidth := 2;
     Rectangle.zorder := 2 |}.

Definition ethics : Rectangle.t :=
  {| Rectangle.xy := (7, 1.5); Rectangle.width := 2.5; Rectangle.height := 1.5;
     Rectangle.fill := true; Rectangle.alpha := 0.7;
     Rectangle.facecolor := "#e6e6e6";
     Rectangle.edgecolor := "#666666";
     Rectangle.linewidth := 2;
     Rectangle.zorder := 2 |}.

(** Lines 158-165. *)
Definition legend_elements : list Patch.t :=
  [ Patch.Build_t "#ffcccc" "#cc0000" "Core - Mirror";
    Patch.Build_t "#ffffcc" "#cccc00" "Core - Synthesis";
    Patch.Build_t "#ccffcc" "#00cc00" "Core - Bridge";
    Patch.Build_t "#cce6ff" "#0066cc" "Supporting - Memory";
    Patch.Build_t "#e6ccff" "#6600cc" "Supporting - Ritual";
    Patch.Build_t "#e6e6e6" "#666666" "Supporting - Ethics" ].

Definition bold : option string := Some "bold".
Definition center : option string := Some "center".

(** "# Core components", lines 25-57. *)
Definition core_components (ax : nat) : Py unit :=
  ax_add_patch ax mirror;;
  ax_text ax 2.5 7 "Mirror" 14 bold center center;;
  ax_text ax 2.5 6.5 "User Understanding" 10 None center center;;
  ax_add_patch ax synthesis;;
  ax_text ax 6 7 "Synthesis" 14 bold center center;;
  ax_text ax 6 6.5 "State Management" 10 None center center;;
  ax_add_patch ax bridge;;
  ax_text ax 9.5 7 "Bridge" 14 bold center center;;
  ax_text ax 9.5 6.5 "External Connections" 10 None center center.

(** "# Supporting systems", lines 59-118. *)
Definition supporting_systems (ax : nat) : Py unit :=
  ax_add_patch ax memory;;
  ax_text ax 2.25 4.25 "Memory System" 12 bold center center;;
  ax_add_patch ax ritual;;
  ax_text ax 5.25 4.25 "Ritual Engine" 12 bold center center;;
  ax_add_patch ax mcp;;
  ax_text ax 8.25 4.25 "MCP Client Interface" 12 bold center center;;
  ax_add_patch ax voice;;
  ax_text ax 2.25 2.25 "Voice Engine" 12 bold center center;;
  ax_add_patch ax breath;;
  ax_text ax 5.25 2.25 "Breath System" 12 bold center center;;
  ax_add_patch ax ethics;;
  ax_text ax 8.25 2.25 "Ethics Engine" 12 bold center center.

(** "# Add arrows for relationships", lines 120-149. *)
Definition relationship_arrows (ax : nat) : Py unit :=
  (* Mirror to Synthesis *)
  ax_arrow ax 4 7 0.4 0 0.1 0.1 "black" "black" 3;;
  ax_arrow ax 4.5 6.8 (-0.4) 0 0.1 0.1 "black" "black" 3;;
  (* Synthesis to Bridge *)
  ax_arrow ax 7.5 7 0.4 0 0.1 0.1 "black" "black" 3;;
  ax_arrow ax 8 6.8 (-0.4) 0 0.1 0.1 "black" "black" 3;;
  (* Mirror to Memory *)
  ax_arrow ax 2.5 6 0 (-0.9) 0.1 0.1 "black" "black" 3;;
  ax_arrow ax 2.3 5.1 0 0.9 0.1 0.1 "black" "black" 3;;
  (* Synthesis to Ritual *)
  ax_arrow ax 5.25 6 0 (-0.9) 0.1 0.1 "black" "black" 3;;
  (* Bridge to MCP *)
  ax_arrow ax 8.25 6 0 (-0.9) 0.1 0.1 "black" "black" 3;;
  (* Synthesis to Voice *)
  ax_arrow ax 5.5 6 (-2.5) (-3.5) 0.1 0.1 "black" "black" 3;;
  (* Synthesis to Breath *)
  ax_arrow ax 5.25 6 0 (-2.9) 0.1 0.1 "black" "black" 3;;
  (* Synthesis to Ethics *)
  ax_arrow ax 6.5 6 1.5 (-3.5) 0.1 0.1 "black" "black" 3;;
  (* Ethics to all components (simplified) *)
  ax_arrow ax 8.25 3 0 2.9 0.1 0.1 "black" "black" 3.

Definition output_path : string :=
  "/home/ubuntu/diagrams/high_level_architecture.png".

(** The whole file, top to bottom. *)
Definition script : Py unit :=
  '(fig, ax) ← plt_subplots (12, 10);
  ax_set_facecolor ax "#f5f5f5";;
  ax_add_patch ax main_system;;
  ax_text ax 6 9.2 "MeAi Companion System" 16 bold center center;;
  core_components ax;;
  supporting_systems ax;;
  relationship_arrows ax;;
  ax_set_xticks ax [];;
  ax_set_yticks ax [];;
  ax_set_xlim ax 0 12;;
  ax_set_ylim ax 0 10;;
  ax_legend ax legend_elements "upper center" (0.5, 0.45) true true 2;;
  plt_title "MeAi System Architecture" 18 20;;
  plt_figtext 0.5 0.01
    "High-level architecture showing core components and supporting systems"
    center 10;;
  plt_tight_layout;;
  plt_savefig output_path 300 "tight".

(** Running the file as a fresh interpreter process: no figure yet. *)
Definition boot (r : runtime) (fs : filesystem) : process :=
  {| rt := r; disk := fs; figures := []; calls := [] |}.

Definition run (r : runtime) (fs : filesystem) : result unit * process :=
  script (boot r fs).

(** The exit status of the interpreter: 1 on an uncaught exception. *)
Definition exit_status (o : result unit) : Z :=
  match o with
  | Return _ => 0
  | Raise _ => 1
  end.

End Renderer.

(** ** What a run builds *)

Definition no_backend : string → Figure.t → Z → string → list Byte.byte :=
  λ _ _ _ _, [].

Definition bare_runtime : runtime :=
  {| argv := []; environ := []; clock := 0; seed := 0 |}.

Definition bare_fs : filesystem := {| dirs := ∅; files := ∅ |}.

(** The figure the script has built, and the calls it has issued, by the
    time [plt.savefig] opens the output file; both are read off a run. *)
Definition diagram : Figure.t :=
  default (Figure.new (0, 0))
    (head (figures (run no_backend bare_runtime bare_fs).2)).

Definition trace : list api_call :=
  calls (run no_backend bare_runtime bare_fs).2.

(** ** Reading a figure *)

#[export] Instance Q_eq_dec : EqDecision Q.
Proof. solve_decision. Defined.

#[export] Instance Rectangle_eq_dec : EqDecision Rectangle.t.
Proof. solve_decision. Defined.

Definition rectangles (a : Axes.t) : list Rectangle.t :=
  omap (λ p, match p with RectangleArtist r => Some r | ArrowArtist _ => None end)
       (Axes.patches a).

Definition arrows (a : Axes.t) : list FancyArrow.t :=
  omap (λ p, match p with ArrowArtist x => Some x | RectangleArtist _ => None end)
       (Axes.patches a).

(** Over every figure of the process (the script has one). *)
Definition drawn_rectangles (p : process) : list Rectangle.t :=
  g ← figures p; rectangles (Figure.ax g).

Definition drawn_arrows (p : process) : list FancyArrow.t :=
  g ← figures p; arrows (Figure.ax g).

Definition drawn_texts (p : process) : list Text.t :=
  g ← figures p; Axes.texts (Figure.ax g).

Definition drawn_legend (p : process) : list Patch.t :=
  g ← figures p; l ← option_list (Axes.legend (Figure.ax g)); Legend.handles l.

(** The rectangles a block of the script adds, taken from the block run
    on its own on a new figure. *)
Definition added_by (block : nat → Py unit) : list Rectangle.t :=
  drawn_rectangles
    (('(fig, ax) ← plt_subplots (12, 10); block ax) (boot bare_runtime bare_fs)).2.

Definition core : list Rectangle.t := added_by core_components.
Definition supporting : list Rectangle.t := added_by supporting_systems.
Definition components : list Rectangle.t := core ++ supporting.

(** *** Geometry *)

Definition left (r : Rectangle.t) : Q := (Rectangle.xy r).1.
Definition bottom (r : Rectangle.t) : Q := (Rectangle.xy r).2.
Definition right (r : Rectangle.t) : Q := left r + Rectangle.width r.
Definition top (r : Rectangle.t) : Q := bottom r + Rectangle.height r.

(** The extent [left, right] x [bottom, top] lies in the view
    [xlim] x [ylim]. *)
Definition within_view (xlim ylim : Q * Q) (r : Rectangle.t) : Prop :=
  xlim.1 <= left r ∧ right r <= xlim.2 ∧ ylim.1 <= bottom r ∧ top r <= ylim.2.

(** The point [(x, y)] is no further than [m] from the rectangle, along
    each axis; [m = 0] is "inside or on the border". *)
Definition near (m x y : Q) (r : Rectangle.t) : bool :=
  Qle_bool (left r - m) x && Qle_bool x (right r + m) &&
  Qle_bool (bottom r - m) y && Qle_bool y (top r + m).

(** The text labels of a rectangle: those anchored inside it. *)
Definition labels_of (texts : list Text.t) (r : Rectangle.t) : list string :=
  Text.s <$> filter (λ t, near 0 (Text.x t) (Text.y t) r = true) texts.

(** A component is called by its first label. *)
Definition name_of (texts : list Text.t) (r : Rectangle.t) : string :=
  default "" (head (labels_of texts r)).

(** *** Legend *)

Fixpoint first_word (s : string) : string :=
  match s with
  | EmptyString => EmptyString
  | String c s' => if Ascii.eqb c " "%char then EmptyString else String c (first_word s')
  end.

Definition kind_of (r : Rectangle.t) : string :=
  if bool_decide (r ∈ core) then "Core" else "Supporting".

(** The legend label that stands for a component: its kind and the first
    word of its name, as in "Supporting - Memory" for "Memory System". *)
Definition legend_label (texts : list Text.t) (r : Rectangle.t) : string :=
  kind_of r ++ " - " ++ first_word (name_of texts r).

Definition legend_entry (texts : list Text.t) (entries : list Patch.t)
    (r : Rectangle.t) : option Patch.t :=
  List.find (λ h, String.eqb (Patch.label h) (legend_label texts r)) entries.

(** *** Arrows *)

(** The components an arrow runs between: its tail [(x, y)] and the base
    of its head [(x + dx, y + dy)] are each within one head length of the
    component. *)
Definition links (texts : list Text.t) (a : FancyArrow.t) : list (string * string) :=
  let m := FancyArrow.head_length a in
  src ← filter (λ r, near m (FancyArrow.x a) (FancyArrow.y a) r = true) components;
  dst ← filter (λ r, near m (FancyArrow.x a + FancyArrow.dx a)
                          (FancyArrow.y a + FancyArrow.dy a) r = true) components;
  [(name_of texts src, name_of texts dst)].

(** [b] has exactly the opposite displacement of [a]. *)
Definition opposite (a b : FancyArrow.t) : bool :=
  Qeq_bool (FancyArrow.dx b) (- FancyArrow.dx a) &&
  Qeq_bool (FancyArrow.dy b) (- FancyArrow.dy a).

(** Some arrow of [l] runs between the same two components as [a] the
    other way round. *)
Definition answered (texts : list Text.t) (l : list FancyArrow.t)
    (a : FancyArrow.t) : bool :=
  existsb (λ b, existsb (λ '(s, d), bool_decide ((d, s) ∈ links texts b))
                        (links texts a)) l.

(** Some arrow of [l] has the opposite displacement of [a] and runs
    between the same components the other way round. *)
Definition paired (texts : list Text.t) (l : list FancyArrow.t)
    (a : FancyArrow.t) : bool :=
  existsb (λ b, opposite a b &&
                bool_decide (links texts b = (λ '(s, d), (d, s)) <$> links texts a)) l.

(** *** Calls *)

Definition call_name (c : api_call) : string :=
  match c with
  | Call_subplots _ => "plt.subplots"
  | Call_set_facecolor _ => "ax.set_facecolor"
  | Call_add_patch _ => "ax.add_patch"
  | Call_text _ => "ax.text"
  | Call_arrow _ => "ax.arrow"
  | Call_set_xticks _ => "ax.set_xticks"
  | Call_set_yticks _ => "ax.set_yticks"
  | Call_set_xlim _ _ => "ax.set_xlim"
  | Call_set_ylim _ _ => "ax.set_ylim"
  | Call_legend _ => "ax.legend"
  | Call_title _ => "plt.title"
  | Call_figtext _ => "plt.figtext"
  | Call_tight_layout => "plt.tight_layout"
  | Call_savefig _ _ _ => "plt.savefig"
  end.

Definition is_savefig (c : api_call) : bool :=
  match c with
  | Call_savefig _ _ _ => true
  | _ => false
  end.

(** *** Filesystem *)

(** Every directory on the way to [fname] is a directory the process may
    search. *)
Definition traversable (fs : filesystem) (fname : string) : Prop :=
  Forall (λ d, files fs !! d = None ∧
               (Dir.searchable <$> dirs fs !! d) = Some true)
         (ancestors fname).

(** The process may write the regular file at [fname] or, there being
    none, may create one in its directory. *)
Definition target_writable (fs : filesystem) (fname : string) : Prop :=
  match files fs !! fname with
  | Some f => File.writable f = true
  | None => (Dir.writable <$> dirs fs !! dirname fname) = Some true
  end.

(** What opening [fname] to create or truncate it asks of the disk. *)
Definition can_write (fs : filesystem) (fname : string) : Prop :=
  traversable fs fname ∧ dirs fs !! fname = None ∧ target_writable fs fname.

(** The disk with [data] saved as the output file. *)
Definition saved (data : list Byte.byte) (fs : filesystem) : filesystem :=
  {| dirs := dirs fs;
     files := <[output_path := File.Build_t true data]> (files fs) |}.

(** The errors an open can end in. *)
Definition open_errors : list exception :=
  [FileNotFoundError output_path; NotADirectoryError output_path;
   IsADirectoryError output_path; PermissionError output_path].

(** Every file sits in a directory that exists. *)
Definition fs_wf (fs : filesystem) : Prop :=
  map_Forall (λ f _, is_Some (dirs fs !! dirname f)) (files fs).

(** [os.remove]. *)
Definition remove (fname : string) (fs : filesystem) : filesystem :=
  {| dirs := dirs fs; files := delete fname (files fs) |}.

(** *** Stacking *)

Definition artist_zorder (p : artist) : Z :=
  match p with
  | RectangleArtist r => Rectangle.zorder r
  | ArrowArtist a => FancyArrow.zorder a
  end.

Fixpoint paint_insert (x : artist) (l : list artist) : list artist :=
  match l with
  | [] => [x]
  | y :: l' =>
      if (artist_zorder x <? artist_zorder y)%Z then x :: y :: l'
      else y :: paint_insert x l'
  end.

(** The order in which an Axes paints its patches: by ascending zorder,
    insertion order among equals (a stable sort); what is painted later
    covers what was painted before. *)
Definition paint_order (l : list artist) : list artist :=
  foldl (λ acc x, paint_insert x acc) [] l.

(** *** Sample hosts *)

(** A sample backend (the PNG signature only) and a host whose target
    directory exists, with a stale output file in it. *)
Definition png_stub : string → Figure.t → Z → string → list Byte.byte :=
  λ _ _ _ _, [Byte.x89; Byte.x50; Byte.x4e; Byte.x47].

Definition open_dir : Dir.t := {| Dir.searchable := true; Dir.writable := true |}.
Definition closed_dir : Dir.t := {| Dir.searchable := true; Dir.writable := false |}.

Definition ready_fs : filesystem :=
  {| dirs := {[ "/home/ubuntu/diagrams" := open_dir; "/home/ubuntu" := open_dir;
                "/home" := closed_dir ]};
     files := {[ output_path := File.Build_t true [Byte.x00] ]} |}.

(** A host without the target directory. *)
Definition other_fs : filesystem :=
  {| dirs := {[ "/home/ubuntu" := open_dir; "/home" := closed_dir ]};
     files := {[ "/home/ubuntu/notes.txt" := File.Build_t true [Byte.x61] ]} |}.

(** A host whose target directory is read-only and holds no output file. *)
Definition locked_fs : filesystem :=
  {| dirs := {[ "/home/ubuntu/diagrams" := closed_dir; "/home/ubuntu" := open_dir;
                "/home" := closed_dir ]};
     files := {[ "/home/ubuntu/diagrams/README" := File.Build_t true [Byte.x61] ]} |}.

(** The same with an output file the process may write. *)
Definition locked_fs_with_output : filesystem :=
  {| dirs := dirs locked_fs;
     files := <[output_path := File.Build_t true [Byte.x00]]> (files locked_fs) |}.

(** A host whose stale output file is read-only. *)
Definition stale_fs : filesystem :=
  {| dirs := dirs ready_fs;
     files := {[ output_path := File.Build_t false [Byte.x00] ]} |}.

(** A host with a directory where the output file should go. *)
Definition blocked_fs : filesystem :=
  {| dirs := <[output_path := open_dir]> (dirs ready_fs); files := ∅ |}.

(** *** Layout *)

(** Two rectangles are at least [g] apart along one of the axes. *)
Definition separated (g : Q) (a b : Rectangle.t) : Prop :=
  right a + g <= left b ∨ right b + g <= left a ∨
  top a + g <= bottom b ∨ top b + g <= bottom a.

(** [inner] lies in [outer], at least [g] away from each of its sides. *)
Definition inset (g : Q) (outer inner : Rectangle.t) : Prop :=
  left outer + g <= left inner ∧ right inner + g <= right outer ∧
  bottom outer + g <= bottom inner ∧ top inner + g <= top outer.

Definition strictly_inside (x y : Q) (r : Rectangle.t) : Prop :=
  left r < x ∧ x < right r ∧ bottom r < y ∧ y < top r.

(** The text is anchored at the centre of the rectangle and centred on
    its anchor both ways. *)
Definition centred_in (r : Rectangle.t) (t : Text.t) : Prop :=
  Text.x t == left r + Rectangle.width r / 2 ∧
  Text.y t == bottom r + Rectangle.height r / 2 ∧
  Text.ha t = Some "center" ∧ Text.va t = Some "center".

(** How many components a text is anchored in. *)
Definition owners (t : Text.t) : nat :=
  length (filter (λ c, near 0 (Text.x t) (Text.y t) c = true) components).

(** The arrow with its head stays in the rectangle: both ends of the
    shaft keep a distance of the head's length plus half its width from
    every side. *)
Definition arrow_within (r : Rectangle.t) (a : FancyArrow.t) : Prop :=
  let m := FancyArrow.head_length a + FancyArrow.head_width a / 2 in
  Forall (λ '(x, y), left r + m <= x ∧ x + m <= right r ∧
                     bottom r + m <= y ∧ y + m <= top r)
         [(FancyArrow.x a, FancyArrow.y a);
          (FancyArrow.x a + FancyArrow.dx a, FancyArrow.y a + FancyArrow.dy a)].

(** Some point of the shaft, from the tail [(x, y)] to the base of the
    head [(x + dx, y + dy)], lies in the interior of the rectangle. *)
Definition passes_over (a : FancyArrow.t) (r : Rectangle.t) : Prop :=
  ∃ t, 0 <= t ∧ t <= 1 ∧
       strictly_inside (FancyArrow.x a + t * FancyArrow.dx a)
                       (FancyArrow.y a + t * FancyArrow.dy a) r.

(** The point [(px, py)] lies on the shaft: on its line, between its
    ends. *)
Definition on_shaft (a : FancyArrow.t) (px py : Q) : bool :=
  let ux := px - FancyArrow.x a in
  let uy := py - FancyArrow.y a in
  let along := ux * FancyArrow.dx a + uy * FancyArrow.dy a in
  Qeq_bool (ux * FancyArrow.dy a - uy * FancyArrow.dx a) 0 &&
  Qle_bool 0 along &&
  Qle_bool along (FancyArrow.dx a * FancyArrow.dx a +
                  FancyArrow.dy a * FancyArrow.dy a).

(** The texts whose anchor the shaft of the arrow runs through. *)
Definition struck (texts : list Text.t) (a : FancyArrow.t) : list string :=
  Text.s <$> filter (λ t, on_shaft a (Text.x t) (Text.y t) = true) texts.

(** The rectangles painted in the colours of a legend handle. *)
Definition painted_like (h : Patch.t) (l : list Rectangle.t) : list Rectangle.t :=
  filter (λ r, Rectangle.facecolor r = Patch.facecolor h ∧
               Rectangle.edgecolor r = Patch.edgecolor h) l.

(** *** Processes *)

(** The state of a process whose newest figure is [g], after the figures
    [l]. *)
Definition with_newest (r : runtime) (d : filesystem) (l : list Figure.t)
    (g : Figure.t) (cs : list api_call) : process :=
  {| rt := r; disk := d; figures := l ++ [g]; calls := cs |}.

(** * Properties *)

Ltac by_eval := vm_compute; reflexivity.
Ltac decided := apply (bool_decide_unpack _); vm_compute; reflexivity.

(** *** Opening the output file *)

Lemma walk_ok (fs : filesystem) (fname : string) (ds : list string) :
  walk fs fname ds = Return tt ↔
  Forall (λ d, files fs !! d = None ∧
               (Dir.searchable <$> dirs fs !! d) = Some true) ds.
Proof.
  induction ds as [|d ds IH]; cbn [walk].
  - split; [constructor|done].
  - rewrite Forall_cons, <- IH.
    destruct (files fs !! d) as [f|].
    { split; [done|]. by intros [[? _] _]. }
    destruct (dirs fs !! d) as [[[|] w]|]; cbn.
    + split; [done|]. by intros [_ ?].
    + split; [done|]. by intros [[_ ?] _].
    + split; [done|]. by intros [[_ ?] _].
Qed.

Lemma walk_raises (fs : filesystem) (fname : string) (ds : list string) e :
  walk fs fname ds = Raise e →
  e ∈ [FileNotFoundError fname; NotADirectoryError fname; PermissionError fname].
Proof.
  induction ds as [|d ds IH]; cbn [walk]; [done|].
  destruct (files fs !! d) as [f|]; [intros [= <-]; repeat constructor|].
  destruct (dirs fs !! d) as [[[|] w]|]; cbn; [done| |];
    intros [= <-]; repeat constructor.
Qed.

Lemma walk_ext (fs fs' : filesystem) (fname : string) (ds : list string) :
  dirs fs' = dirs fs →
  Forall (λ d, files fs' !! d = files fs !! d) ds →
  walk fs' fname ds = walk fs fname ds.
Proof.
  intros Hd Hf. induction Hf as [|d ds Hx _ IH]; cbn [walk]; [done|].
  by rewrite Hd, Hx, IH.
Qed.

Lemma open_check_ok (fs : filesystem) (fname : string) :
  open_check fs fname = Return tt ↔ can_write fs fname.
Proof.
  unfold open_check, can_write, traversable, target_writable.
  rewrite <- (walk_ok fs fname).
  destruct (walk fs fname (ancestors fname)) as [[]|e].
  2:{ split; [discriminate|]. intros [? _]. discriminate. }
  destruct (dirs fs !! fname) as [m|].
  { split; [discriminate|]. intros (_ & ? & _). discriminate. }
  destruct (files fs !! fname) as [[[|] data]|]; cbn.
  - tauto.
  - split; [discriminate|]. intros (_ & _ & ?). discriminate.
  - destruct (dirs fs !! dirname fname) as [[x [|]]|]; cbn.
    + tauto.
    + split; [discriminate|]. intros (_ & _ & ?). discriminate.
    + split; [discriminate|]. intros (_ & _ & ?). discriminate.
Qed.

Lemma open_check_raises (fs : filesystem) e :
  open_check fs output_path = Raise e → e ∈ open_errors.
Proof.
  unfold open_check, open_errors.
  destruct (walk fs output_path (ancestors output_path)) as [[]|e'] eqn:Hw.
  - destruct (dirs fs !! output_path) as [m|]; [intros [= <-]; repeat constructor|].
    destruct (files fs !! output_path) as [[[|] data]|]; cbn [File.writable];
      [discriminate|intros [= <-]; repeat constructor|].
    destruct (dirs fs !! dirname output_path) as [[x [|]]|]; cbn [Dir.writable];
      [discriminate|intros [= <-]; repeat constructor..].
  - intros [= <-]. apply walk_raises in Hw.
    rewrite !elem_of_cons in Hw. rewrite !elem_of_cons. tauto.
Qed.

Lemma walk_missing (fs : filesystem) (fname : string) (ds : list string) d :
  Forall (λ a, files fs !! a = None ∧
               (Dir.searchable <$> dirs fs !! a) = Some true) ds →
  files fs !! d = None → dirs fs !! d = None →
  walk fs fname (ds ++ [d]) = Raise (FileNotFoundError fname).
Proof.
  intros Hds Hf Hd. induction Hds as [|a ds [Ha1 Ha2] _ IH]; cbn [app walk].
  - by rewrite Hf, Hd.
  - rewrite Ha1. destruct (dirs fs !! a) as [[[|] w]|]; [exact IH|discriminate..].
Qed.

(** The ancestors of the output path, and that it is none of them. *)
Lemma ancestors_split :
  ancestors output_path = (ancestors (dirname output_path) ++ [dirname output_path])%list.
Proof. reflexivity. Qed.

Lemma ancestors_output_path :
  ancestors output_path = ["/home"; "/home/ubuntu"; "/home/ubuntu/diagrams"].
Proof. reflexivity. Qed.

Lemma walk_off_target (fs fs' : filesystem) :
  dirs fs' = dirs fs →
  (∀ f, f ≠ output_path → files fs' !! f = files fs !! f) →
  walk fs' output_path (ancestors output_path) =
  walk fs output_path (ancestors output_path).
Proof.
  intros Hd Hf. apply walk_ext; [done|].
  rewrite ancestors_output_path. repeat constructor; by apply Hf.
Qed.


Section Properties.

Variable print_figure : string → Figure.t → Z → string → list Byte.byte.

(** A run is: build [diagram] in memory, leaving the disk as found, then
    one [write_file] of its PNG rendering. *)
Lemma run_unfold (r : runtime) (fs : filesystem) :
  run print_figure r fs =
  write_file output_path (print_figure "png" diagram 300%Z "tight")
    {| rt := r; disk := fs; figures := [diagram]; calls := trace |}.
Proof. reflexivity. Qed.

Lemma write_file_frame (fname : string) (data : list Byte.byte) (p : process) :
  figures (write_file fname data p).2 = figures p ∧
  calls (write_file fname data p).2 = calls p ∧
  rt (write_file fname data p).2 = rt p ∧
  dirs (disk (write_file fname data p).2) = dirs (disk p).
Proof.
  unfold write_file. destruct (open_check (disk p) fname) as [[]|e]; repeat split.
Qed.

Lemma run_figures (r : runtime) (fs : filesystem) :
  figures (run print_figure r fs).2 = [diagram].
Proof. rewrite run_unfold. apply write_file_frame. Qed.

Lemma run_calls (r : runtime) (fs : filesystem) :
  calls (run print_figure r fs).2 = trace.
Proof. rewrite run_unfold. apply write_file_frame. Qed.

Lemma run_dirs (r : runtime) (fs : filesystem) :
  dirs (disk (run print_figure r fs).2) = dirs fs.
Proof. rewrite run_unfold. apply write_file_frame. Qed.

(** A run ends either in the error of the open, the disk as found, or
    with the rendering saved. *)
Lemma run_cases (r : runtime) (fs : filesystem) :
  (∃ e, open_check fs output_path = Raise e ∧
        run print_figure r fs =
        (Raise e, {| rt := r; disk := fs; figures := [diagram]; calls := trace |})) ∨
  (open_check fs output_path = Return tt ∧
   run print_figure r fs =
   (Return tt,
    {| rt := r;
       disk := saved (print_figure "png" diagram 300%Z "tight") fs;
       figures := [diagram]; calls := trace |})).
Proof.
  rewrite run_unfold. unfold write_file. cbn [disk].
  destruct (open_check fs output_path) as [[]|e]; eauto.
Qed.

Lemma run_ok (r : runtime) (fs : filesystem) :
  can_write fs output_path →
  run print_figure r fs =
  (Return tt,
   {| rt := r;
      disk := saved (print_figure "png" diagram 300%Z "tight") fs;
      figures := [diagram]; calls := trace |}).
Proof.
  intros H%open_check_ok.
  destruct (run_cases r fs) as [(e & He & _)|[_ Hrun]]; [congruence|done].
Qed.

Lemma drawn_rectangles_run (r : runtime) (fs : filesystem) :
  drawn_rectangles (run print_figure r fs).2 = main_system :: components.
Proof. unfold drawn_rectangles. rewrite run_figures. reflexivity. Qed.

Lemma drawn_arrows_run (r : runtime) (fs : filesystem) :
  drawn_arrows (run print_figure r fs).2 = arrows (Figure.ax diagram).
Proof. unfold drawn_arrows. rewrite run_figures. vm_compute. reflexivity. Qed.

Lemma drawn_texts_run (r : runtime) (fs : filesystem) :
  drawn_texts (run print_figure r fs).2 = Axes.texts (Figure.ax diagram).
Proof. unfold drawn_texts. rewrite run_figures. vm_compute. reflexivity. Qed.

Lemma drawn_legend_run (r : runtime) (fs : filesystem) :
  drawn_legend (run print_figure r fs).2 = legend_elements.
Proof. unfold drawn_legend. rewrite run_figures. reflexivity. Qed.

(** C2. The renderer draws exactly nine labeled component rectangles: the
    three core ones named Mirror, Synthesis and Bridge and the six
    supporting ones named Memory System, Ritual Engine, MCP Client
    Interface, Voice Engine, Breath System and Ethics Engine.  Whatever the
    run, each has the same position, size, fill and border color, and one
    or two text labels anchored inside it. *)
Theorem nine_labeled_components (r : runtime) (fs : filesystem) :
  let p := (run print_figure r fs).2 in
  let texts := drawn_texts p in
  drawn_rectangles p = main_system :: components ∧
  (main_system ∉ components) ∧
  length components = 9%nat ∧ NoDup components ∧
  core = [mirror; synthesis; bridge] ∧
  supporting = [memory; ritual; mcp; voice; breath; ethics] ∧
  (labels_of texts <$> core) =
    [["Mirror"; "User Understanding"]; ["Synthesis"; "State Management"];
     ["Bridge"; "External Connections"]] ∧
  (labels_of texts <$> supporting) =
    [["Memory System"]; ["Ritual Engine"]; ["MCP Client Interface"];
     ["Voice Engine"]; ["Breath System"]; ["Ethics Engine"]] ∧
  Forall (λ c, length (labels_of texts c) = 1%nat ∨
               length (labels_of texts c) = 2%nat) components.
Proof.
  intros p texts. subst p texts.
  rewrite drawn_rectangles_run, drawn_texts_run.
  split; [reflexivity|].
  split; [decided|].
  split; [reflexivity|].
  split; [decided|].
  split; [reflexivity|]. split; [reflexivity|].
  split; [by_eval|]. split; [by_eval|].
  repeat (apply Forall_cons; split; [vm_compute; auto|]). constructor.
Qed.

(** C6. Every rectangle the script declares lies within the view it
    sets: with lower-left corner (x, y), width w and height h, the extent
    [x, x+w] x [y, y+h] is contained in [0, 12] x [0, 10]. *)
Theorem rectangles_within_view (r : runtime) (fs : filesystem) :
  ∃ g, figures (run print_figure r fs).2 = [g] ∧
       Axes.xlim (Figure.ax g) = (0, 12) ∧
       Axes.ylim (Figure.ax g) = (0, 10) ∧
       rectangles (Figure.ax g) = main_system :: components ∧
       Forall (within_view (Axes.xlim (Figure.ax g)) (Axes.ylim (Figure.ax g)))
              (rectangles (Figure.ax g)).
Proof.
  exists diagram. split; [apply run_figures|].
  split; [reflexivity|]. split; [reflexivity|]. split; [reflexivity|].
  change (rectangles (Figure.ax diagram))
    with [main_system; mirror; synthesis; bridge; memory; ritual; mcp; voice;
          breath; ethics].
  repeat (apply Forall_cons; split;
          [unfold within_view; repeat split;
           apply Qle_bool_imp_le; vm_compute; reflexivity|]).
  constructor.
Qed.

(** C8. Stacking has three layers: the background container has zorder 1,
    each of the nine component rectangles zorder 2 and each arrow
    zorder 3; so the container is painted first, then the components, then
    the arrows, every arrow above every rectangle. *)
Theorem three_layer_stacking (r : runtime) (fs : filesystem) :
  let p := (run print_figure r fs).2 in
  drawn_rectangles p = main_system :: components ∧
  length components = 9%nat ∧
  Rectangle.zorder main_system = 1%Z ∧
  Forall (λ c, Rectangle.zorder c = 2%Z) components ∧
  Forall (λ a, FancyArrow.zorder a = 3%Z) (drawn_arrows p) ∧
  Forall (λ c, (Rectangle.zorder main_system < Rectangle.zorder c)%Z) components ∧
  Forall (λ a, Forall (λ c, (Rectangle.zorder c < FancyArrow.zorder a)%Z)
                      (drawn_rectangles p)) (drawn_arrows p) ∧
  Forall (λ g, paint_order (Axes.patches (Figure.ax g)) =
               RectangleArtist main_system ::
               (RectangleArtist <$> components) ++
               (ArrowArtist <$> drawn_arrows p)) (figures p).
Proof.
  intros p. subst p.
  rewrite drawn_rectangles_run, drawn_arrows_run, run_figures.
  split; [reflexivity|]. split; [reflexivity|]. split; [reflexivity|].
  split; [repeat constructor|].
  split; [repeat constructor|].
  split; [repeat constructor|].
  split; [repeat constructor|].
  repeat constructor.
Qed.

(** C9. The legend has exactly six entries, labelled Core - Mirror, Core -
    Synthesis, Core - Bridge, Supporting - Memory, Supporting - Ritual and
    Supporting - Ethics; each stands for one drawn component and has that
    rectangle's facecolor and edgecolor; the three supporting components
    MCP Client Interface, Voice Engine and Breath System have no entry. *)
Theorem legend_entries (r : runtime) (fs : filesystem) :
  let p := (run print_figure r fs).2 in
  let texts := drawn_texts p in
  let entries := drawn_legend p in
  length entries = 6%nat ∧
  (Patch.label <$> entries) =
    ["Core - Mirror"; "Core - Synthesis"; "Core - Bridge";
     "Supporting - Memory"; "Supporting - Ritual"; "Supporting - Ethics"] ∧
  omap (legend_entry texts entries) components = entries ∧
  Forall (λ c, ∀ h, legend_entry texts entries c = Some h →
                    Patch.facecolor h = Rectangle.facecolor c ∧
                    Patch.edgecolor h = Rectangle.edgecolor c) components ∧
  (name_of texts <$> filter (λ c, ¬ is_Some (legend_entry texts entries c)) components) =
    ["MCP Client Interface"; "Voice Engine"; "Breath System"] ∧
  filter (λ c, ¬ is_Some (legend_entry texts entries c)) components ⊆ supporting.
Proof.
  intros p texts entries. subst p texts entries.
  rewrite drawn_texts_run, drawn_legend_run.
  split; [reflexivity|]. split; [reflexivity|].
  split; [by_eval|].
  split.
  { repeat (apply Forall_cons; split;
            [intros h; vm_compute; intros Hh;
             first [discriminate Hh
                   | injection Hh as <-; split; reflexivity]|]).
    constructor. }
  split; [by_eval|].
  decided.
Qed.

(** C10. Exactly twelve arrows are drawn, all black in fill and edge and
    with head width 0.1 and head length 0.1.  The relationships
    Mirror-Synthesis, Synthesis-Bridge and Mirror-Memory each have a pair
    of arrows of opposite direction; the other six arrows (Synthesis to
    Ritual, Bridge to MCP, Synthesis to Voice, Synthesis to Breath,
    Synthesis to Ethics, and one upward from Ethics) go one way only. *)
Theorem twelve_arrows (r : runtime) (fs : filesystem) :
  let p := (run print_figure r fs).2 in
  let texts := drawn_texts p in
  let l := drawn_arrows p in
  length l = 12%nat ∧
  Forall (λ a, FancyArrow.fc a = "black" ∧ FancyArrow.ec a = "black" ∧
               FancyArrow.head_width a = 0.1 ∧
               FancyArrow.head_length a = 0.1) l ∧
  (links texts <$> l) =
    [[("Mirror", "Synthesis")]; [("Synthesis", "Mirror")];
     [("Synthesis", "Bridge")]; [("Bridge", "Synthesis")];
     [("Mirror", "Memory System")]; [("Memory System", "Mirror")];
     [("Synthesis", "Ritual Engine")];
     [("Bridge", "MCP Client Interface")];
     [("Synthesis", "Voice Engine")];
     [("Synthesis", "Breath System")];
     [("Synthesis", "Ethics Engine")];
     [("Ethics Engine", "Bridge")]] ∧
  (paired texts l <$> l) =
    [true; true; true; true; true; true;
     false; false; false; false; false; false] ∧
  (answered texts l <$> l) =
    [true; true; true; true; true; true;
     false; false; false; false; false; false] ∧
  (∃ up, last l = Some up ∧ FancyArrow.dx up = 0 ∧ 0 < FancyArrow.dy up).
Proof.
  intros p texts l. subst p texts l.
  rewrite drawn_texts_run, drawn_arrows_run.
  split; [reflexivity|].
  split; [repeat constructor|].
  split; [by_eval|].
  split; [by_eval|].
  split; [by_eval|].
  eexists. split; [reflexivity|]. split; reflexivity.
Qed.

(** C5. Control flow is one linear pass: whatever the run-time inputs and
    whether or not the write succeeds, the same calls are issued once each
    in the same order: create the drawing surface; draw the background
    container and its title; draw the nine labeled rectangles; draw the
    arrows; strip the axis ticks and set the view bounds; add the legend;
    add the global title and the caption; write the image.  The file write
    is the last operation and the only one that touches the filesystem. *)
Theorem single_linear_pass (r : runtime) (fs : filesystem) :
  let p := (run print_figure r fs).2 in
  calls p = trace ∧
  (call_name <$> trace) =
    (["plt.subplots"; "ax.set_facecolor"] ++
    ["ax.add_patch"; "ax.text"] ++
    mjoin (replicate 3 ["ax.add_patch"; "ax.text"; "ax.text"]) ++
    mjoin (replicate 6 ["ax.add_patch"; "ax.text"]) ++
    replicate 12 "ax.arrow" ++
    ["ax.set_xticks"; "ax.set_yticks"; "ax.set_xlim"; "ax.set_ylim"] ++
    ["ax.legend"] ++
    ["plt.title"; "plt.figtext"] ++
    ["plt.tight_layout"; "plt.savefig"])%list ∧
  omap (λ c, match c with Call_add_patch x => Some x | _ => None end) trace =
    main_system :: components ∧
  last trace = Some (Call_savefig output_path 300 "tight") ∧
  length (filter (λ c, is_savefig c = true) trace) = 1%nat ∧
  (∃ data,
     run print_figure r fs =
     write_file output_path data
       {| rt := r; disk := fs; figures := [diagram]; calls := trace |}) ∧
  (disk p = fs ∨
   ∃ data, disk p = {| dirs := dirs fs;
                       files := <[output_path := data]> (files fs) |}).
Proof.
  intros p. subst p.
  split; [apply run_calls|].
  split; [by_eval|].
  split; [by_eval|].
  split; [by_eval|].
  split; [by_eval|].
  split; [eexists; apply run_unfold|].
  destruct (run_cases r fs) as [(e & _ & ->)|[_ ->]]; cbn [snd disk]; eauto.
Qed.

(** C1. The renderer takes no run-time input and writes one PNG image to
    the fixed absolute path /home/ubuntu/diagrams/high_level_architecture.png,
    rendered at 300 DPI with a tight bounding box from a 12x10-inch
    figure, overwriting the file already at that path, if any; no other
    file changes.  This is so whenever the directories on the way can be
    searched, the path is not itself a directory, and the process may
    write the existing file or, there being none, the directory. *)
Theorem render_writes_png (r : runtime) (fs : filesystem) :
  traversable fs output_path →
  dirs fs !! output_path = None →
  match files fs !! output_path with
  | Some old => File.writable old = true
  | None => (Dir.writable <$> dirs fs !! dirname output_path) = Some true
  end →
  output_path = "/home/ubuntu/diagrams/high_level_architecture.png" ∧
  infer_format output_path = "png" ∧
  Figure.figsize diagram = (12, 10) ∧
  filter (λ c, is_savefig c = true) trace =
    [Call_savefig output_path 300 "tight"] ∧
  ∃ p, run print_figure r fs = (Return tt, p) ∧
       figures p = [diagram] ∧
       dirs (disk p) = dirs fs ∧
       (File.data <$> files (disk p) !! output_path) =
         Some (print_figure "png" diagram 300%Z "tight") ∧
       (∀ f, f ≠ output_path → files (disk p) !! f = files fs !! f).
Proof.
  intros Hway Hnodir Htarget.
  split; [reflexivity|]. split; [reflexivity|]. split; [reflexivity|].
  split; [by_eval|].
  eexists. split; [apply (run_ok r fs); by repeat split|].
  cbn [figures disk saved dirs files].
  split; [reflexivity|]. split; [reflexivity|].
  split; [by rewrite lookup_insert_eq|].
  intros f Hf. apply lookup_insert_ne. congruence.
Qed.

(** C3. If the directory /home/ubuntu/diagrams does not exist when the
    file is to be written, the run ends with the error of the file-write
    call, uncaught, and no output file is produced, not even a partial
    one: the filesystem is left as it was.  The error is
    FileNotFoundError when the directories above exist and can be
    searched and nothing else has the directory's name. *)
Theorem missing_directory_fails (r : runtime) (fs : filesystem) :
  dirs fs !! dirname output_path = None →
  fs_wf fs →
  dirname output_path = "/home/ubuntu/diagrams" ∧
  ∃ e p, run print_figure r fs = (Raise e, p) ∧
         e ∈ open_errors ∧
         (traversable fs (dirname output_path) →
          files fs !! dirname output_path = None →
          e = FileNotFoundError output_path) ∧
         exit_status (run print_figure r fs).1 = 1%Z ∧
         disk p = fs ∧
         files (disk p) !! output_path = None.
Proof.
  intros Hdir Hwf. split; [reflexivity|].
  assert (Hno : open_check fs output_path ≠ Return tt).
  { rewrite open_check_ok. intros (Hway & _).
    unfold traversable in Hway. rewrite ancestors_output_path in Hway.
    apply Forall_cons in Hway as [_ Hway]. apply Forall_cons in Hway as [_ Hway].
    apply Forall_cons in Hway as [[_ Hway] _].
    change (dirname output_path) with "/home/ubuntu/diagrams" in Hdir.
    by rewrite Hdir in Hway. }
  destruct (run_cases r fs) as [(e & He & Hrun)|[Hok _]]; [|done].
  exists e, {| rt := r; disk := fs; figures := [diagram]; calls := trace |}.
  rewrite Hrun. cbn [fst disk exit_status].
  split; [reflexivity|]. split; [by apply (open_check_raises fs)|].
  split.
  { intros Hway Hnofile.
    assert (Hfnf : open_check fs output_path = Raise (FileNotFoundError output_path)).
    { unfold open_check. rewrite ancestors_split.
      by rewrite (walk_missing fs output_path _ _ Hway Hnofile Hdir). }
    rewrite Hfnf in He. by injection He as <-. }
  split; [reflexivity|]. split; [reflexivity|].
  destruct (files fs !! output_path) as [data|] eqn:Hfile; [|reflexivity].
  apply (map_Forall_lookup_1 _ _ _ _ Hwf) in Hfile.
  rewrite Hdir in Hfile. by destruct Hfile.
Qed.

(** C7. Regeneration is idempotent: after a run that saved the file and
    the deletion of that file, a new run (the directory still being there
    and open to new files) recreates it at the same path with the content
    the earlier run gave it; the disk is again as the earlier run left
    it. *)
Theorem regeneration_idempotent (r1 r2 : runtime) (fs : filesystem) :
  (run print_figure r1 fs).1 = Return tt →
  (Dir.writable <$> dirs fs !! dirname output_path) = Some true →
  let fs1 := disk (run print_figure r1 fs).2 in
  let fs2 := remove output_path fs1 in
  let fs3 := disk (run print_figure r2 fs2).2 in
  is_Some (files fs1 !! output_path) ∧
  files fs2 !! output_path = None ∧
  (run print_figure r2 fs2).1 = Return tt ∧
  files fs3 !! output_path = files fs1 !! output_path ∧
  fs3 = fs1.
Proof.
  intros Hfirst Hdir.
  destruct (run_cases r1 fs) as [(e & _ & Hrun)|[Hok Hrun]]; rewrite Hrun in *.
  { discriminate Hfirst. }
  clear Hrun Hfirst. cbn [snd disk].
  set (data := print_figure "png" diagram 300%Z "tight").
  apply open_check_ok in Hok as (Hway & Hnodir & _).
  assert (Hfile2 : files (remove output_path (saved data fs)) !! output_path = None).
  { cbn [remove files]. apply lookup_delete_eq. }
  assert (Hok2 : can_write (remove output_path (saved data fs)) output_path).
  { split; [|split].
    - apply (walk_ok _ output_path). apply (walk_ok fs output_path) in Hway.
      rewrite <- Hway. apply walk_off_target; [reflexivity|].
      intros f Hf. cbn [remove saved files].
      rewrite lookup_delete_ne, lookup_insert_ne; congruence.
    - exact Hnodir.
    - unfold target_writable. rewrite Hfile2. exact Hdir. }
  rewrite (run_ok r2 _ Hok2). cbn [fst snd disk]. fold data.
  assert (Hfs3 : saved data (remove output_path (saved data fs)) = saved data fs).
  { unfold saved, remove. cbn [dirs files].
    rewrite insert_delete_eq, insert_insert_eq. reflexivity. }
  split; [cbn [saved files]; rewrite lookup_insert_eq; eexists; reflexivity|].
  split; [exact Hfile2|].
  split; [reflexivity|].
  split; [rewrite Hfs3; reflexivity|]. exact Hfs3.
Qed.

End Properties.

(** * Instances *)

Lemma render_writes_png_witness :
  traversable ready_fs output_path ∧
  (∃ old, files ready_fs !! output_path = Some old ∧ File.writable old = true) ∧
  ∃ p, run png_stub bare_runtime ready_fs = (Return tt, p) ∧
       (File.data <$> files (disk p) !! output_path) =
         Some [Byte.x89; Byte.x50; Byte.x4e; Byte.x47].
Proof.
  assert (Hway : traversable ready_fs output_path) by decided.
  split; [exact Hway|].
  split; [eexists; split; by_eval|].
  destruct (render_writes_png png_stub bare_runtime ready_fs Hway)
    as (_ & _ & _ & _ & p & Hp); [by_eval|by_eval|].
  exists p. destruct Hp as (Hrun & _ & _ & Hfile & _). split; assumption.
Defined.

Lemma missing_directory_fails_witness :
  dirs other_fs !! dirname output_path = None ∧ fs_wf other_fs ∧
  ∃ p, run png_stub bare_runtime other_fs =
         (Raise (FileNotFoundError output_path), p) ∧
       disk p = other_fs.
Proof.
  assert (Hdir : dirs other_fs !! dirname output_path = None)
    by (vm_compute; reflexivity).
  assert (Hwf : fs_wf other_fs)
    by (apply (bool_decide_unpack _); vm_compute; reflexivity).
  split; [exact Hdir|]. split; [exact Hwf|].
  destruct (missing_directory_fails png_stub bare_runtime other_fs Hdir Hwf)
    as (_ & e & p & Hrun & _ & Hkind & _ & Hdisk & _).
  exists p. split; [|assumption].
  rewrite Hrun. f_equal. f_equal. apply Hkind; [decided|by_eval].
Defined.

Lemma regeneration_idempotent_witness :
  (run png_stub bare_runtime ready_fs).1 = Return tt ∧
  (Dir.writable <$> dirs ready_fs !! dirname output_path) = Some true ∧
  disk (run png_stub bare_runtime
          (remove output_path (disk (run png_stub bare_runtime ready_fs).2))).2 =
  disk (run png_stub bare_runtime ready_fs).2.
Proof.
  assert (Hrun : (run png_stub bare_runtime ready_fs).1 = Return tt)
    by (vm_compute; reflexivity).
  assert (Hdir : (Dir.writable <$> dirs ready_fs !! dirname output_path) = Some true)
    by (vm_compute; reflexivity).
  split; [exact Hrun|]. split; [exact Hdir|].
  apply (regeneration_idempotent png_stub bare_runtime bare_runtime ready_fs
           Hrun Hdir).
Defined.

(** * The script in a process that is not fresh *)

Section AnyProcess.

Variable print_figure : string → Figure.t → Z → string → list Byte.byte.

Lemma bind_eq {A B} (m : Py A) (k : A → Py B) (p p' : process) (a : A) :
  m p = (Return a, p') → (m ≫= k) p = k a p'.
Proof. intros H. unfold mbind, Py_bind. by rewrite H. Qed.

Lemma bind_assoc {A B C} (m : Py A) (f : A → Py B) (k : B → Py C) (p : process) :
  ((m ≫= f) ≫= k) p = (m ≫= λ a, f a ≫= k) p.
Proof. unfold mbind, Py_bind. by destruct (m p) as [[a|e] p']. Qed.

Lemma on_figure_last r d l g cs (f : Figure.t → Figure.t) :
  on_figure (length l) f (with_newest r d l g cs) = (Return tt, with_newest r d l (f g) cs).
Proof.
  unfold on_figure, set_figures, with_newest. cbn [figures rt disk calls].
  rewrite list_lookup_middle by done.
  replace (length l) with (length l + 0)%nat at 1 by lia.
  by rewrite insert_app_r.
Qed.

Lemma gcf_last r d l g cs :
  gcf (with_newest r d l g cs) = (Return (length l), with_newest r d l g cs).
Proof.
  unfold gcf, with_newest. cbn [figures].
  destruct l as [|g0 l]; [done|].
  cbn [app]. by rewrite length_app, Nat.add_1_r.
Qed.

Lemma get_figure_last r d l g cs :
  get_figure (length l) (with_newest r d l g cs) = (Return g, with_newest r d l g cs).
Proof.
  unfold get_figure, with_newest. cbn [figures]. by rewrite list_lookup_middle.
Qed.

Lemma logged_on_figure r d l g cs (c : api_call) (f : Figure.t → Figure.t) :
  (log_call c;; on_figure (length l) f) (with_newest r d l g cs) =
  (Return tt, with_newest r d l (f g) (cs ++ [c])).
Proof. erewrite bind_eq by reflexivity. apply on_figure_last. Qed.

Lemma logged_on_current r d l g cs (c : api_call) (f : Figure.t → Figure.t) :
  (log_call c;; n ← gcf; on_figure n f) (with_newest r d l g cs) =
  (Return tt, with_newest r d l (f g) (cs ++ [c])).
Proof.
  erewrite bind_eq by reflexivity.
  erewrite bind_eq by apply gcf_last. apply on_figure_last.
Qed.

Lemma plt_subplots_any r d l cs (size : Q * Q) :
  plt_subplots size {| rt := r; disk := d; figures := l; calls := cs |} =
  (Return (length l, length l),
   with_newest r d l (Figure.new size) (cs ++ [Call_subplots size])).
Proof. reflexivity. Qed.

Lemma plt_savefig_last r d l g cs (fname : string) (dpi : Z) (bbox : string) :
  plt_savefig print_figure fname dpi bbox (with_newest r d l g cs) =
  write_file fname (print_figure (infer_format fname) g dpi bbox)
    (with_newest r d l g (cs ++ [Call_savefig fname dpi bbox])).
Proof.
  unfold plt_savefig.
  erewrite bind_eq by reflexivity.
  erewrite bind_eq by apply gcf_last.
  erewrite bind_eq by apply get_figure_last.
  reflexivity.
Qed.

Ltac step :=
  first
    [ rewrite bind_assoc
    | erewrite bind_eq by
        first [ apply plt_subplots_any
              | apply logged_on_figure
              | apply logged_on_current ] ];
  cbv beta iota.

Lemma script_any (p : process) :
  script print_figure p =
  write_file output_path (print_figure "png" diagram 300%Z "tight")
    {| rt := rt p; disk := disk p;
       figures := figures p ++ [diagram]; calls := calls p ++ trace |}.
Proof.
  destruct p as [r d l cs]. cbn [rt disk figures calls].
  unfold script, core_components, supporting_systems, relationship_arrows.
  repeat step.
  rewrite plt_savefig_last. rewrite <- !app_assoc. reflexivity.
Qed.


Lemma write_file_disk (data : list Byte.byte) (p q : process) :
  disk p = disk q →
  (write_file output_path data p).1 = (write_file output_path data q).1 ∧
  disk (write_file output_path data p).2 = disk (write_file output_path data q).2.
Proof.
  intros H. unfold write_file. rewrite H.
  destruct (open_check (disk q) output_path) as [[]|e]; cbn [fst snd disk set_disk];
    rewrite ?H; split; reflexivity.
Qed.


(** With the way to it clear, the path itself decides. *)
Lemma open_check_target (fs : filesystem) :
  traversable fs output_path →
  open_check fs output_path =
  match dirs fs !! output_path, files fs !! output_path with
  | Some _, _ => Raise (IsADirectoryError output_path)
  | None, Some f =>
      if File.writable f then Return tt else Raise (PermissionError output_path)
  | None, None =>
      match dirs fs !! dirname output_path with
      | Some m =>
          if Dir.writable m then Return tt else Raise (PermissionError output_path)
      | None => Raise (FileNotFoundError output_path)
      end
  end.
Proof.
  intros Hway%(walk_ok fs output_path). unfold open_check. by rewrite Hway.
Qed.

Ltac qle := apply Qle_bool_imp_le; vm_compute; reflexivity.
Ltac qlt := vm_compute; reflexivity.

(** X1. No two of the nine component rectangles overlap or touch: any two
    are at least 0.5 apart along an axis; and each lies inside the
    background container at least 0.5 away from its border. *)
Theorem components_apart (r : runtime) (fs : filesystem) :
  let p := (run print_figure r fs).2 in
  drawn_rectangles p = main_system :: components ∧
  ForallOrdPairs (separated 0.5) components ∧
  Forall (inset 0.5 main_system) components.
Proof.
  intros p. subst p. rewrite drawn_rectangles_run.
  split; [reflexivity|].
  change components
    with [mirror; synthesis; bridge; memory; ritual; mcp; voice; breath; ethics].
  split.
  - repeat (apply FOP_cons;
            [repeat (apply List.Forall_cons;
                     [unfold separated;
                      first [left; qle | right; left; qle
                            | right; right; left; qle | right; right; right; qle]|]);
             apply List.Forall_nil|]).
    apply FOP_nil.
  - repeat (apply List.Forall_cons; [unfold inset; repeat split; qle|]).
    apply List.Forall_nil.
Qed.

(** X2. The first label of every component (its name) is bold, anchored
    exactly at the centre of the component's rectangle and centred on that
    anchor horizontally and vertically; the container's title is anchored
    in no component and every other text in exactly one. *)
Theorem labels_centred (r : runtime) (fs : filesystem) :
  let texts := drawn_texts (run print_figure r fs).2 in
  Forall (λ c, ∃ t,
            head (filter (λ t, near 0 (Text.x t) (Text.y t) c = true) texts) = Some t ∧
            Text.s t = name_of texts c ∧
            centred_in c t ∧ Text.fontweight t = Some "bold") components ∧
  (owners <$> texts) = 0%nat :: replicate 12 1%nat.
Proof.
  intros texts. subst texts. rewrite drawn_texts_run.
  split; [|by_eval].
  change components
    with [mirror; synthesis; bridge; memory; ritual; mcp; voice; breath; ethics].
  repeat (apply List.Forall_cons;
          [eexists; split; [by_eval|]; split; [by_eval|];
           split; [|reflexivity];
           unfold centred_in; repeat split;
           apply Qeq_bool_eq; vm_compute; reflexivity|]).
  apply List.Forall_nil.
Qed.

(** X3. Everything placed in data coordinates stays inside the background
    container: each arrow with its head, and the anchor of each text. *)
Theorem drawing_within_container (r : runtime) (fs : filesystem) :
  let p := (run print_figure r fs).2 in
  Forall (arrow_within main_system) (drawn_arrows p) ∧
  Forall (λ t, strictly_inside (Text.x t) (Text.y t) main_system) (drawn_texts p).
Proof.
  intros p. subst p. rewrite drawn_arrows_run, drawn_texts_run.
  let l := eval vm_compute in (arrows (Figure.ax diagram)) in
  change (arrows (Figure.ax diagram)) with l.
  let l := eval vm_compute in (Axes.texts (Figure.ax diagram)) in
  change (Axes.texts (Figure.ax diagram)) with l.
  split.
  - repeat (apply List.Forall_cons;
            [unfold arrow_within;
             repeat (apply List.Forall_cons; [repeat split; qle|]);
             apply List.Forall_nil|]).
    apply List.Forall_nil.
  - repeat (apply List.Forall_cons; [unfold strictly_inside; repeat split; qlt|]).
    apply List.Forall_nil.
Qed.

Ltac numerals :=
  cbv [strictly_inside left right top bottom fst snd
       Rectangle.xy Rectangle.width Rectangle.height
       FancyArrow.x FancyArrow.y FancyArrow.dx FancyArrow.dy
       mirror synthesis bridge memory ritual mcp voice breath ethics] in *.

Ltac at_param := split; [qle|]; split; [qle|]; numerals; repeat split; qlt.

Ltac crossing :=
  split;
  [ intros (t & Ht0 & Ht1 & Hin);
    first [ decided
          | exfalso; numerals; destruct Hin as (? & ? & ? & ?); lra ]
  | intros Hin;
    first [ exfalso; apply (bool_decide_pack _) in Hin; vm_compute in Hin;
            exact Hin
          | exists 0.5; at_param
          | exists 1; at_param ] ].

(** X4. Four arrows run across a component that is not one of their ends:
    the shaft of Synthesis-to-Voice and of Synthesis-to-Breath crosses the
    interior of Ritual Engine, that of Synthesis-to-Ethics and the upward
    one from Ethics crosses MCP Client Interface.  Two shafts end inside
    their target (Voice Engine, Ethics Engine).  No other shaft enters the
    interior of any component. *)
Theorem arrows_over_components (r : runtime) (fs : filesystem) :
  let p := (run print_figure r fs).2 in
  let texts := drawn_texts p in
  Forall2 (λ a names, Forall (λ c, passes_over a c ↔ name_of texts c ∈ names)
                             components)
    (drawn_arrows p)
    [ []; []; []; []; []; []; []; [];
      ["Ritual Engine"; "Voice Engine"];
      ["Ritual Engine"];
      ["MCP Client Interface"; "Ethics Engine"];
      ["MCP Client Interface"] ].
Proof.
  intros p texts. subst p texts. rewrite drawn_arrows_run, drawn_texts_run.
  let l := eval vm_compute in (arrows (Figure.ax diagram)) in
  change (arrows (Figure.ax diagram)) with l.
  change components
    with [mirror; synthesis; bridge; memory; ritual; mcp; voice; breath; ethics].
  repeat (apply List.Forall2_cons;
          [repeat (apply List.Forall_cons; [crossing|]); apply List.Forall_nil|]).
  apply List.Forall2_nil.
Qed.

(** X5. Two arrows run straight through the anchor of a label: the shaft
    of Synthesis-to-Breath through that of "Ritual Engine", the upward one
    from Ethics through that of "MCP Client Interface"; no other anchor
    lies on a shaft. *)
Theorem struck_labels (r : runtime) (fs : filesystem) :
  let p := (run print_figure r fs).2 in
  (struck (drawn_texts p) <$> drawn_arrows p) =
    [ []; []; []; []; []; []; []; []; [];
      ["Ritual Engine"]; []; ["MCP Client Interface"] ].
Proof.
  intros p. subst p. rewrite drawn_arrows_run, drawn_texts_run. by_eval.
Qed.

(** X6. The legend can be read by colour: the ten drawn rectangles have
    pairwise different face colours, and the face and edge colour of each
    legend handle are those of exactly one drawn rectangle, the component
    the handle's label names. *)
Theorem legend_colour_key (r : runtime) (fs : filesystem) :
  let p := (run print_figure r fs).2 in
  let texts := drawn_texts p in
  let entries := drawn_legend p in
  NoDup (Rectangle.facecolor <$> drawn_rectangles p) ∧
  ((λ h, painted_like h (drawn_rectangles p)) <$> entries) =
    [[mirror]; [synthesis]; [bridge]; [memory]; [ritual]; [ethics]] ∧
  (legend_entry texts entries <$> [mirror; synthesis; bridge; memory; ritual; ethics]) =
    (Some <$> entries).
Proof.
  intros p texts entries. subst p texts entries.
  rewrite drawn_rectangles_run, drawn_texts_run, drawn_legend_run.
  split; [decided|]. split; by_eval.
Qed.

(** X7. If the directory /home/ubuntu/diagrams can be reached but the
    process may not create files in it, a run succeeds exactly when a
    regular file that the process may write is already at the output
    path, which it then overwrites; otherwise the run ends with an
    uncaught PermissionError and leaves the disk as it was. *)
Theorem unwritable_directory_fails (r : runtime) (fs : filesystem) :
  traversable fs output_path →
  dirs fs !! output_path = None →
  (Dir.writable <$> dirs fs !! dirname output_path) = Some false →
  let o := (run print_figure r fs).1 in
  (o = Return tt ↔
   ∃ old, files fs !! output_path = Some old ∧ File.writable old = true) ∧
  (o ≠ Return tt →
   o = Raise (PermissionError output_path) ∧
   exit_status o = 1%Z ∧ disk (run print_figure r fs).2 = fs).
Proof.
  intros Hway Hnodir Hdir o. subst o.
  pose proof (open_check_target fs Hway) as Hopen. rewrite Hnodir in Hopen.
  destruct (run_cases print_figure r fs) as [(e & He & ->)|[Hok ->]]; cbn [fst snd disk].
  - rewrite He in Hopen. split.
    + split; [discriminate|]. intros (old & Hold & Hw).
      rewrite Hold, Hw in Hopen. discriminate Hopen.
    + intros _. split; [|split; reflexivity].
      destruct (files fs !! output_path) as [[[|] data]|];
        cbn [File.writable] in Hopen; [discriminate Hopen|exact Hopen|].
      destruct (dirs fs !! dirname output_path) as [[x [|]]|];
        cbn in Hdir; cbn [Dir.writable] in Hopen;
        [discriminate Hdir|exact Hopen|discriminate Hdir].
  - rewrite Hok in Hopen. split; [|intros H; by destruct H].
    split; [|reflexivity]. intros _.
    destruct (files fs !! output_path) as [[[|] data]|];
      cbn [File.writable] in Hopen; [by eexists|discriminate Hopen|].
    destruct (dirs fs !! dirname output_path) as [[x [|]]|];
      cbn in Hdir; cbn [Dir.writable] in Hopen;
      [discriminate Hdir|discriminate Hopen|discriminate Hdir].
Qed.

(** X8. Whatever the disk, a run never creates, removes or changes a
    directory or any file other than the output file; a failed run leaves
    the disk untouched, and its exception is an error of opening the
    output file; after a successful run the output file holds the
    rendering. *)
Theorem run_touches_only_output (r : runtime) (fs : filesystem) :
  let o := (run print_figure r fs).1 in
  let fs' := disk (run print_figure r fs).2 in
  dirs fs' = dirs fs ∧
  (∀ f, f ≠ output_path → files fs' !! f = files fs !! f) ∧
  (o ≠ Return tt → fs' = fs) ∧
  (∀ e, o = Raise e → e ∈ open_errors) ∧
  (o = Return tt →
   (File.data <$> files fs' !! output_path) =
     Some (print_figure "png" diagram 300%Z "tight")).
Proof.
  intros o fs'. subst o fs'.
  destruct (run_cases print_figure r fs) as [(e & He & ->)|[Hok ->]]; cbn [fst snd disk].
  - split; [reflexivity|]. split; [reflexivity|]. split; [reflexivity|].
    split; [|discriminate].
    intros e' [= <-]. by apply (open_check_raises fs).
  - split; [reflexivity|].
    split; [intros f Hf; cbn [saved files]; by rewrite lookup_insert_ne|].
    split; [intros H; by destruct H|].
    split; [discriminate|].
    intros _. cbn [saved files]. by rewrite lookup_insert_eq.
Qed.


(** X10. Run in a process that already holds figures and has issued calls
    before, the script leaves those figures as they are, draws the same
    diagram on a new figure of its own, issues the same calls, and ends
    and writes as a run in a fresh process on the same disk does. *)
Theorem script_in_any_process (p : process) :
  let p' := (script print_figure p).2 in
  figures p' = (figures p ++ [diagram])%list ∧
  calls p' = (calls p ++ trace)%list ∧
  rt p' = rt p ∧
  (script print_figure p).1 = (run print_figure (rt p) (disk p)).1 ∧
  disk p' = disk (run print_figure (rt p) (disk p)).2.
Proof.
  intros p'. subst p'. rewrite script_any, run_unfold.
  set (data := print_figure "png" diagram 300%Z "tight").
  set (st := {| rt := rt p; disk := disk p;
                figures := figures p ++ [diagram]; calls := calls p ++ trace |}).
  destruct (write_file_frame output_path data st) as (Hf & Hc & Hr & _).
  split; [exact Hf|]. split; [exact Hc|]. split; [exact Hr|].
  by apply write_file_disk.
Qed.


(** X12. A read-only output file stops the run: with the way to the
    output path clear and a regular file there that the process may not
    write, the run ends with an uncaught PermissionError and the stale
    file stays as it is, whatever the permissions of the directory. *)
Theorem stale_readonly_file_kept (r : runtime) (fs : filesystem) (old : File.t) :
  traversable fs output_path →
  dirs fs !! output_path = None →
  files fs !! output_path = Some old →
  File.writable old = false →
  (run print_figure r fs).1 = Raise (PermissionError output_path) ∧
  disk (run print_figure r fs).2 = fs ∧
  files (disk (run print_figure r fs).2) !! output_path = Some old.
Proof.
  intros Hway Hnodir Hold Hw.
  pose proof (open_check_target fs Hway) as Hopen.
  rewrite Hnodir, Hold, Hw in Hopen.
  destruct (run_cases print_figure r fs) as [(e & He & ->)|[Hok _]]; cbn [fst snd disk].
  - rewrite He in Hopen. injection Hopen as ->. by repeat split.
  - rewrite Hok in Hopen. discriminate Hopen.
Qed.

(** X13. A directory in the place of the output file stops the run: with
    the way clear and a directory at the output path, the run ends with an
    uncaught IsADirectoryError and leaves the disk as it was. *)
Theorem directory_at_output_path (r : runtime) (fs : filesystem) :
  traversable fs output_path →
  is_Some (dirs fs !! output_path) →
  (run print_figure r fs).1 = Raise (IsADirectoryError output_path) ∧
  disk (run print_figure r fs).2 = fs.
Proof.
  intros Hway [m Hm].
  pose proof (open_check_target fs Hway) as Hopen. rewrite Hm in Hopen.
  destruct (run_cases print_figure r fs) as [(e & He & ->)|[Hok _]]; cbn [fst snd disk].
  - rewrite He in Hopen. injection Hopen as ->. by split.
  - rewrite Hok in Hopen. discriminate Hopen.
Qed.

End AnyProcess.

Lemma unwritable_directory_fails_witness :
  traversable locked_fs output_path ∧
  dirs locked_fs !! output_path = None ∧
  (Dir.writable <$> dirs locked_fs !! dirname output_path) = Some false ∧
  (run png_stub bare_runtime locked_fs).1 = Raise (PermissionError output_path) ∧
  (run png_stub bare_runtime locked_fs_with_output).1 = Return tt.
Proof.
  assert (Hway : traversable locked_fs output_path) by decided.
  assert (Hnodir : dirs locked_fs !! output_path = None) by by_eval.
  assert (Hdir : (Dir.writable <$> dirs locked_fs !! dirname output_path) = Some false)
    by by_eval.
  split; [exact Hway|]. split; [exact Hnodir|]. split; [exact Hdir|].
  split.
  - destruct (unwritable_directory_fails png_stub bare_runtime locked_fs
                Hway Hnodir Hdir) as [_ Hfail].
    apply Hfail. intros H. vm_compute in H. discriminate H.
  - destruct (unwritable_directory_fails png_stub bare_runtime locked_fs_with_output)
      as [[_ Hok] _]; [decided|by_eval|by_eval|].
    apply Hok. exists (File.Build_t true [Byte.x00]). split; by_eval.
Defined.

Lemma stale_readonly_file_kept_witness :
  traversable stale_fs output_path ∧
  files stale_fs !! output_path = Some (File.Build_t false [Byte.x00]) ∧
  (run png_stub bare_runtime stale_fs).1 = Raise (PermissionError output_path) ∧
  disk (run png_stub bare_runtime stale_fs).2 = stale_fs.
Proof.
  assert (Hway : traversable stale_fs output_path) by decided.
  assert (Hold : files stale_fs !! output_path = Some (File.Build_t false [Byte.x00]))
    by by_eval.
  split; [exact Hway|]. split; [exact Hold|].
  assert (Hnodir : dirs stale_fs !! output_path = None) by by_eval.
  destruct (stale_readonly_file_kept png_stub bare_runtime stale_fs
              (File.Build_t false [Byte.x00]) Hway Hnodir Hold eq_refl)
    as (Ho & Hd & _).
  split; assumption.
Defined.

Lemma directory_at_output_path_witness :
  traversable blocked_fs output_path ∧
  is_Some (dirs blocked_fs !! output_path) ∧
  (run png_stub bare_runtime blocked_fs).1 = Raise (IsADirectoryError output_path) ∧
  disk (run png_stub bare_runtime blocked_fs).2 = blocked_fs.
Proof.
  assert (Hway : traversable blocked_fs output_path) by decided.
  assert (Hdir : is_Some (dirs blocked_fs !! output_path)) by decided.
  split; [exact Hway|]. split; [exact Hdir|].
  apply (directory_at_output_path png_stub bare_runtime blocked_fs Hway Hdir).
Defined.
